(** * ISO exercise tax calculator: exemption, tax schedule and spread solver

    A shallow embedding of [iso_analysis.py].  Python floats are read as
    exact rationals ([Q]); every statement below is about that idealised
    arithmetic, with [==] ([Qeq]) as numeric equality.  Exceptions are
    explicit: a fallible function returns a [result]. *)

From Stdlib Require Import QArith Qminmax Lqa Lia List Bool String ZArith.
Import ListNotations.
Open Scope Q_scope.

(** ** Numbers *)

(** Python's [a <= b] and [a < b] on numbers. *)
Definition Qleb (a b : Q) : bool := Qle_bool a b.
Definition Qltb (a b : Q) : bool := negb (Qle_bool b a).

(** A float that may be [float("inf")]. *)
Inductive ext : Type :=
| Fin (q : Q)
| PInf.

(** [min(a, e)] where [e] may be infinite: Python returns its second
    argument only when it is strictly smaller than the first. *)
Definition min_ext (a : Q) (e : ext) : Q :=
  match e with
  | Fin b => Qmin a b
  | PInf => a
  end.

(** ** Exceptions *)

Inductive exn : Type :=
| ValueError (msg : string)
| ValidationError (msg : string).

Inductive result (A : Type) : Type :=
| Ok (a : A)
| Raise (e : exn).
Arguments Ok {A} a.
Arguments Raise {A} e.

Definition bind {A B : Type} (m : result A) (k : A -> result B) : result B :=
  match m with
  | Ok a => k a
  | Raise e => Raise e
  end.

Notation "x <- m ;; k" := (bind m (fun x => k))
  (at level 61, m at next level, right associativity).

(** The error kinds of the specification's taxonomy, and the kind each
    Python exception of the program falls under: the [ValueError] of
    [compute_tax] is an invalid input, pydantic's [ValidationError] an
    invalid configuration. *)
Inductive ErrorKind : Type :=
| InvalidConfiguration
| InvalidInput
| RootFindingFailure.

Definition kind_of (e : exn) : ErrorKind :=
  match e with
  | ValueError _ => InvalidInput
  | ValidationError _ => InvalidConfiguration
  end.

Definition fails_with {A : Type} (r : result A) (k : ErrorKind) : Prop :=
  exists e, r = Raise e /\ kind_of e = k.

Definition is_ok {A : Type} (r : result A) : bool :=
  match r with
  | Ok _ => true
  | Raise _ => false
  end.

(** ** Data model *)

Record TaxBracket : Type := mkTaxBracket {
  threshold : Q;
  rate : Q
}.

Record Exemption : Type := mkExemption {
  base_amount : Q;
  phaseout_start : option Q;
  phaseout_rate : option Q
}.

Record TaxSchedule : Type := mkTaxSchedule {
  year : Z;
  filing_status : string;
  name : string;
  exemption : Exemption;
  brackets : list TaxBracket
}.

(** *** Field constraints ([Field(ge=..., le=...)]) *)

Definition ge0 (v : Q) : bool := Qleb 0 v.
Definition le1 (v : Q) : bool := Qleb v 1.

(** An [Optional] field is constrained only when it is set. *)
Definition opt_ok (p : Q -> bool) (o : option Q) : bool :=
  match o with
  | Some v => p v
  | None => true
  end.

Definition bracket_fields_ok (b : TaxBracket) : bool :=
  ge0 (threshold b) && (ge0 (rate b) && le1 (rate b)).

Definition exemption_fields_ok (e : Exemption) : bool :=
  ge0 (base_amount e)
  && opt_ok ge0 (phaseout_start e)
  && opt_ok (fun r => ge0 r && le1 r) (phaseout_rate e).

(** [TaxBracket(threshold=..., rate=...)] *)
Definition new_TaxBracket (threshold rate : Q) : result TaxBracket :=
  let b := mkTaxBracket threshold rate in
  if bracket_fields_ok b then Ok b
  else Raise (ValidationError "TaxBracket").

(** [Exemption(base_amount=..., phaseout_start=..., phaseout_rate=...)]:
    the three field constraints are the only validation. *)
Definition new_Exemption (base_amount : Q) (phaseout_start phaseout_rate : option Q)
  : result Exemption :=
  let e := mkExemption base_amount phaseout_start phaseout_rate in
  if exemption_fields_ok e then Ok e
  else Raise (ValidationError "Exemption").

(** ** Exemption.compute *)

Definition compute (self : Exemption) (income : Q) : Q :=
  let exemption := base_amount self in
  match phaseout_start self, phaseout_rate self with
  | Some start, Some prate =>
      if Qltb start income then
        let reduction := prate * (income - start) in
        Qmax (exemption - reduction) 0
      else exemption
  | _, _ => exemption
  end.

(** ** TaxSchedule *)

(** [sorted(thresholds)]: a stable ascending sort. *)
Fixpoint insert_sorted (v : Q) (l : list Q) : list Q :=
  match l with
  | [] => [v]
  | h :: t => if Qleb v h then v :: h :: t else h :: insert_sorted v t
  end.

Definition sorted (l : list Q) : list Q :=
  fold_right insert_sorted [] l.

(** [a == b] on lists of floats: same length, equal element by element. *)
Fixpoint list_eqb (a b : list Q) : bool :=
  match a, b with
  | [], [] => true
  | x :: a', y :: b' => Qeq_bool x y && list_eqb a' b'
  | _, _ => false
  end.

(** The [brackets] field validator. *)
Definition brackets_must_be_sorted (v : list TaxBracket) : result (list TaxBracket) :=
  let thresholds := map threshold v in
  if negb (list_eqb thresholds (sorted thresholds)) then
    Raise (ValueError "Tax brackets must be sorted by threshold")
  else Ok v.

(** [TaxSchedule(year=..., ..., exemption=..., brackets=...)]: the field
    constraints, then the validator; pydantic reports a validator's
    [ValueError] as a [ValidationError]. *)
Definition new_TaxSchedule (year : Z) (filing_status name : string)
    (exemption : Exemption) (brackets : list TaxBracket) : result TaxSchedule :=
  if negb ((2000 <=? year)%Z && (year <=? 2100)%Z) then
    Raise (ValidationError "year")
  else if negb (1 <=? List.length brackets)%nat then
    Raise (ValidationError "brackets")
  else
    match brackets_must_be_sorted brackets with
    | Raise (ValueError msg) => Raise (ValidationError msg)
    | Raise e => Raise e
    | Ok v => Ok (mkTaxSchedule year filing_status name exemption v)
    end.

(** The [for i, bracket in enumerate(self.brackets)] loop of [compute_tax]:
    [rest] is what is left to enumerate, [i] the index of its head, [tax]
    the running total.  [self.brackets[i + 1]] is read from the whole list. *)
Fixpoint bracket_loop (all : list TaxBracket) (taxable : Q)
    (i : nat) (rest : list TaxBracket) (tax : Q) : Q :=
  match rest with
  | [] => tax
  | bracket :: rest' =>
      let next_threshold :=
        match nth_error all (i + 1) with
        | Some b => Fin (threshold b)
        | None => PInf
        end in
      if Qleb taxable (threshold bracket) then tax
      else
        let bracket_top := min_ext taxable next_threshold in
        let taxable_in_bracket := bracket_top - threshold bracket in
        bracket_loop all taxable (S i) rest' (tax + taxable_in_bracket * rate bracket)
  end.

Definition compute_tax (self : TaxSchedule) (income : Q) : result Q :=
  if Qltb income 0 then Raise (ValueError "Income cannot be negative")
  else
    let exemption := compute (exemption self) income in
    let taxable := income - exemption in
    if Qleb taxable 0 then Ok 0
    else Ok (bracket_loop (brackets self) taxable 0 (brackets self) 0).

(** ** The 2025 schedules (single filer) *)

Definition ORDINARY_SCHEDULE : TaxSchedule :=
  mkTaxSchedule 2025 "Single" "Ordinary"
    (mkExemption 15750 None None)
    [ mkTaxBracket 0 0.10;
      mkTaxBracket 11925 0.12;
      mkTaxBracket 48475 0.22;
      mkTaxBracket 103350 0.24;
      mkTaxBracket 197300 0.32;
      mkTaxBracket 250525 0.35;
      mkTaxBracket 626350 0.37 ].

Definition AMT_SCHEDULE : TaxSchedule :=
  mkTaxSchedule 2025 "Single" "AMT"
    (mkExemption 88100 (Some 626350) (Some 0.25))
    [ mkTaxBracket 0 0.26;
      mkTaxBracket 239100 0.28 ].

(** ** The root finder

    [scipy.optimize.root] is not part of the program.  It is modelled by
    what the program can rely on: a root finder sees the objective only
    through the values it returns at the points it asks for, it asks for
    finitely many, and it ends with an [OptimizeResult].  An exception
    raised by the objective leaves the solver and reaches the caller. *)
Module optimize.

Record OptimizeResult : Type := mkResult {
  x : Q;
  success : bool;
  residual : Q;
  nfev : nat
}.

Inductive solver : Type :=
| Return (r : OptimizeResult)
| Eval (pt : Q) (k : Q -> solver).

Fixpoint root (s : solver) (f : Q -> result Q) : result OptimizeResult :=
  match s with
  | Return r => Ok r
  | Eval pt k =>
      match f pt with
      | Ok v => root (k v) f
      | Raise e => Raise e
      end
  end.

(** A sample solver: Newton's iteration with a forward-difference slope
    and a budget of [budget] steps.  It reports failure when the slope
    vanishes or the budget is spent. *)
Fixpoint newton_fd (budget : nat) (n : nat) (x0 : Q) : solver :=
  Eval x0 (fun f0 =>
    if Qeq_bool f0 0 then Return (mkResult x0 true f0 (n + 1))
    else
      match budget with
      | O => Return (mkResult x0 false f0 (n + 1))
      | S budget' =>
          Eval (x0 + 1) (fun f1 =>
            let slope := f1 - f0 in
            if Qeq_bool slope 0 then Return (mkResult x0 false f0 (n + 2))
            else newton_fd budget' (n + 2) (Qred (x0 - f0 / slope)))
      end).

End optimize.

(** ** compute_spread *)

Section Spread.

(** The method [scipy.optimize.root] runs from a given initial guess. *)
Variable method : Q -> optimize.solver.

Definition objective (income : Q) (ordinary_schedule amt_schedule : TaxSchedule)
    (total_income : Q) : result Q :=
  amt_tax <- compute_tax amt_schedule total_income ;;
  ordinary_tax <- compute_tax ordinary_schedule income ;;
  Ok (amt_tax - ordinary_tax).

Definition initial_guess (income : Q) (amt_schedule : TaxSchedule) : Q :=
  income + base_amount (exemption amt_schedule).

Definition solve (income : Q) (ordinary_schedule amt_schedule : TaxSchedule)
  : result optimize.OptimizeResult :=
  optimize.root (method (initial_guess income amt_schedule))
                (objective income ordinary_schedule amt_schedule).

Definition compute_spread (income : Q)
    (ordinary_schedule amt_schedule : TaxSchedule) : result Q :=
  result <- solve income ordinary_schedule amt_schedule ;;
  Ok (optimize.x result - income).

End Spread.

(** ** Validity of constructed values *)

(** Non-decreasing thresholds, as the validator accepts them. *)
Fixpoint ascending (l : list Q) : bool :=
  match l with
  | [] => true
  | a :: t =>
      match t with
      | [] => true
      | b :: _ => Qleb a b && ascending t
      end
  end.

(** Strictly increasing thresholds, as the specification words it. *)
Fixpoint strictly_ascending (l : list Q) : bool :=
  match l with
  | [] => true
  | a :: t =>
      match t with
      | [] => true
      | b :: _ => Qltb a b && strictly_ascending t
      end
  end.

(** What holds of every schedule built by the constructors. *)
Definition valid_schedule (s : TaxSchedule) : bool :=
  exemption_fields_ok (exemption s)
  && forallb bracket_fields_ok (brackets s)
  && (1 <=? List.length (brackets s))%nat
  && ascending (map threshold (brackets s))
  && ((2000 <=? year s)%Z && (year s <=? 2100)%Z).

(** ** The specification's wording of the bracket walk *)

(** Walk the brackets in order with a running total; stop at the first
    bracket whose threshold is not below [taxable]; otherwise add
    [rate_i * (min(taxable, threshold_{i+1}) - threshold_i)], the next
    threshold being infinite after the last bracket. *)
Fixpoint stacked_accumulation (taxable : Q) (bs : list TaxBracket) (total : Q) : Q :=
  match bs with
  | [] => total
  | b :: rest =>
      if Qleb taxable (threshold b) then total
      else
        let next := match rest with
                    | [] => PInf
                    | b' :: _ => Fin (threshold b')
                    end in
        stacked_accumulation taxable rest
          (total + rate b * (min_ext taxable next - threshold b))
  end.

Definition taxable_income (s : TaxSchedule) (income : Q) : Q :=
  income - compute (exemption s) income.

(** ** Auxiliary notions used in the statements *)

(** Exactly one of the two phaseout fields is set. *)
Definition half_phaseout (start prate : option Q) : Prop :=
  (start <> None /\ prate = None) \/ (start = None /\ prate <> None).

(** The threshold that bounds a bracket from above: that of the bracket
    after it, if any. *)
Definition next_of (rest' : list TaxBracket) : ext :=
  match rest' with
  | [] => PInf
  | b :: _ => Fin (threshold b)
  end.

(** The loop without its index: the next threshold is the head of what is
    left. The arithmetic is the source's. *)
Fixpoint walk (taxable : Q) (rest : list TaxBracket) (tax : Q) : Q :=
  match rest with
  | [] => tax
  | bracket :: rest' =>
      if Qleb taxable (threshold bracket) then tax
      else walk taxable rest'
             (tax + (min_ext taxable (next_of rest') - threshold bracket)
                    * rate bracket)
  end.

(** The brackets of a validated schedule. *)
Definition brackets_ok (bs : list TaxBracket) : Prop :=
  forallb bracket_fields_ok bs = true /\ ascending (map threshold bs) = true.

(** ** The range analysis of [main]

    The branch of [main] taken for two command-line arguments, from the
    scanned incomes to the reported minimum.  The array [x_values] that
    [np.arange(start, end + 10, 10)] returned is taken as given; printing
    and plotting are left out. *)

(** A list comprehension over a function that may raise: the first
    exception ends it. *)
Fixpoint comprehension {A B : Type} (f : A -> result B) (l : list A)
  : result (list B) :=
  match l with
  | [] => Ok []
  | a :: l' =>
      b <- f a ;;
      bs <- comprehension f l' ;;
      Ok (b :: bs)
  end.

(** [np.argmin]: the index of the first smallest element; an empty
    sequence is an error. *)
Fixpoint argmin_from (best_idx : nat) (best : Q) (i : nat) (l : list Q) : nat :=
  match l with
  | [] => best_idx
  | y :: l' =>
      if Qltb y best then argmin_from i y (S i) l'
      else argmin_from best_idx best (S i) l'
  end.

Definition argmin (l : list Q) : result nat :=
  match l with
  | [] => Raise (ValueError "attempt to get argmin of an empty sequence")
  | y :: l' => Ok (argmin_from 0 y 1 l')
  end.

(** The values [min_spread] and [min_income] that [main] reports for the
    scanned incomes [x_values]. *)
Definition range_analysis (method : Q -> optimize.solver) (x_values : list Q)
  : result (Q * Q) :=
  y_values <- comprehension
                (fun x => compute_spread method x ORDINARY_SCHEDULE AMT_SCHEDULE)
                x_values ;;
  min_idx <- argmin y_values ;;
  let min_spread := nth min_idx y_values 0 in
  let min_income := nth min_idx x_values 0 in
  Ok (min_spread, min_income).

(** ** Further notions used in the statements *)

(** The schedule [s] with another bracket list. *)
Definition with_brackets (s : TaxSchedule) (bs : list TaxBracket) : TaxSchedule :=
  mkTaxSchedule (year s) (filing_status s) (name s) (exemption s) bs.

(** A method that evaluates the objective before it answers. *)
Definition evaluates_first (method : Q -> optimize.solver) : Prop :=
  forall x0, exists pt k, method x0 = optimize.Eval pt k.

(** * Properties *)

(** ** Comparisons *)

Lemma Qleb_le (a b : Q) : Qleb a b = true <-> a <= b.
Proof. unfold Qleb. apply Qle_bool_iff. Qed.

Lemma Qleb_gt (a b : Q) : Qleb a b = false <-> b < a.
Proof.
  unfold Qleb. split; intro H.
  - apply Qnot_le_lt. intro Hle. apply Qle_bool_iff in Hle. congruence.
  - destruct (Qle_bool a b) eqn:E; trivial.
    apply Qle_bool_iff in E. apply Qle_not_lt in E. contradiction.
Qed.

Lemma Qltb_lt (a b : Q) : Qltb a b = true <-> a < b.
Proof.
  unfold Qltb. rewrite negb_true_iff. apply (Qleb_gt b a).
Qed.

Lemma Qltb_ge (a b : Q) : Qltb a b = false <-> b <= a.
Proof.
  unfold Qltb. rewrite negb_false_iff. apply (Qleb_le b a).
Qed.

(** Turn every boolean comparison in sight into its proposition. *)
Ltac reflect_cmp :=
  repeat match goal with
  | H : Qleb _ _ = true |- _ => apply Qleb_le in H
  | H : Qleb _ _ = false |- _ => apply Qleb_gt in H
  | H : Qltb _ _ = true |- _ => apply Qltb_lt in H
  | H : Qltb _ _ = false |- _ => apply Qltb_ge in H
  | H : ge0 _ = true |- _ => unfold ge0 in H
  | H : le1 _ = true |- _ => unfold le1 in H
  | H : _ && _ = true |- _ => apply andb_true_iff in H; destruct H
  end.

Lemma Qmax_0_nonneg (a : Q) : 0 <= Qmax a 0.
Proof. apply Q.le_max_r. Qed.

(** ** Exemption.compute *)

Lemma compute_unset_start (e : Exemption) (income : Q) :
  phaseout_start e = None -> compute e income = base_amount e.
Proof. unfold compute. intros ->. reflexivity. Qed.

Lemma compute_unset_rate (e : Exemption) (income : Q) :
  phaseout_rate e = None -> compute e income = base_amount e.
Proof. unfold compute. intros ->. destruct (phaseout_start e); reflexivity. Qed.

Lemma compute_below_start (e : Exemption) (income start : Q) :
  phaseout_start e = Some start -> income <= start ->
  compute e income = base_amount e.
Proof.
  unfold compute. intros -> Hle.
  destruct (phaseout_rate e); trivial.
  apply Qltb_ge in Hle. rewrite Hle. reflexivity.
Qed.

Lemma compute_above_start (e : Exemption) (income start prate : Q) :
  phaseout_start e = Some start -> phaseout_rate e = Some prate ->
  start < income ->
  compute e income = Qmax (base_amount e - prate * (income - start)) 0.
Proof.
  unfold compute. intros -> -> Hlt.
  apply Qltb_lt in Hlt. rewrite Hlt. reflexivity.
Qed.

Lemma compute_nonneg (e : Exemption) (income : Q) :
  exemption_fields_ok e = true -> 0 <= compute e income.
Proof.
  unfold exemption_fields_ok, compute. intro Hok. reflect_cmp.
  destruct (phaseout_start e), (phaseout_rate e); trivial.
  destruct (Qltb q income); trivial. apply Qmax_0_nonneg.
Qed.

Lemma compute_le_base (e : Exemption) (income : Q) :
  exemption_fields_ok e = true -> compute e income <= base_amount e.
Proof.
  unfold exemption_fields_ok, compute. intro Hok. reflect_cmp.
  destruct (phaseout_start e) as [start|], (phaseout_rate e) as [prate|];
    try apply Qle_refl.
  destruct (Qltb start income) eqn:E; try apply Qle_refl.
  simpl in *. reflect_cmp.
  apply Q.max_lub; trivial.
  assert (0 <= prate * (income - start)) by (apply Qmult_le_0_compat; lra).
  lra.
Qed.

(** C3: for every valid [Exemption], [compute] returns [base_amount] when
    [phaseout_start] is unset or [income <= phaseout_start], returns
    [max(base_amount - phaseout_rate * (income - phaseout_start), 0)] when
    both phaseout fields are set and [income > phaseout_start], and is never
    negative.  It holds at every income, non-negative or not. *)
Theorem compute_contract (e : Exemption) (income : Q) :
  exemption_fields_ok e = true ->
  (phaseout_start e = None -> compute e income = base_amount e)
  /\ (forall start, phaseout_start e = Some start -> income <= start ->
        compute e income = base_amount e)
  /\ (forall start prate,
        phaseout_start e = Some start -> phaseout_rate e = Some prate ->
        start < income ->
        compute e income = Qmax (base_amount e - prate * (income - start)) 0)
  /\ 0 <= compute e income.
Proof.
  intro Hok. repeat split.
  - apply compute_unset_start.
  - intros start. apply compute_below_start.
  - intros start prate. apply compute_above_start.
  - now apply compute_nonneg.
Qed.

Lemma compute_contract_witness :
  exemption_fields_ok (exemption AMT_SCHEDULE) = true
  /\ compute (exemption AMT_SCHEDULE) 700000
     = Qmax (88100 - 0.25 * (700000 - 626350)) 0
  /\ 0 <= compute (exemption AMT_SCHEDULE) 2000000.
Proof.
  split; [reflexivity|].
  destruct (compute_contract (exemption AMT_SCHEDULE) 700000 eq_refl)
    as (_ & _ & Habove & _).
  destruct (compute_contract (exemption AMT_SCHEDULE) 2000000 eq_refl)
    as (_ & _ & _ & Hpos).
  split; [|exact Hpos].
  apply (Habove 626350 0.25); reflexivity.
Defined.

(** C10: [compute] has no error branch: it is a total function of the
    income.  At a negative income, with [phaseout_start] unset or
    non-negative, it returns [base_amount], as at any income not above
    [phaseout_start]. *)
Theorem compute_negative_income (e : Exemption) (income : Q) :
  income < 0 -> opt_ok ge0 (phaseout_start e) = true ->
  compute e income = base_amount e.
Proof.
  intros Hneg Hstart. destruct (phaseout_start e) as [start|] eqn:E.
  - simpl in Hstart. reflect_cmp.
    apply (compute_below_start e income start E). lra.
  - now apply compute_unset_start.
Qed.

Lemma compute_negative_income_witness :
  compute (exemption AMT_SCHEDULE) (-5000) = 88100
  /\ compute (exemption ORDINARY_SCHEDULE) (-5000) = 15750.
Proof.
  split.
  - apply (compute_negative_income (exemption AMT_SCHEDULE) (-5000));
      reflexivity.
  - apply (compute_negative_income (exemption ORDINARY_SCHEDULE) (-5000));
      reflexivity.
Defined.

(** ** Construction *)

(** C8, as stated, fails: an [Exemption] with [phaseout_start] set and
    [phaseout_rate] unset is constructed without error, and so is a
    [TaxSchedule] containing it. *)
Lemma half_phaseout_not_rejected :
  half_phaseout (Some 626350) None
  /\ new_Exemption 88100 (Some 626350) None
     = Ok (mkExemption 88100 (Some 626350) None)
  /\ ~ fails_with (new_Exemption 88100 (Some 626350) None) InvalidConfiguration
  /\ is_ok (new_TaxSchedule 2025 "Single" "AMT"
              (mkExemption 88100 (Some 626350) None)
              [mkTaxBracket 0 0.26; mkTaxBracket 239100 0.28]) = true.
Proof.
  repeat split.
  - left. split; [discriminate | reflexivity].
  - intros (e & He & _). discriminate He.
Qed.

(** C8, amended: an [Exemption] with exactly one phaseout field set, each
    set field within its range, is constructed without error; its phaseout
    is inactive, [compute] returning [base_amount] at every income. *)
Theorem half_phaseout_inactive (base : Q) (start prate : option Q) :
  half_phaseout start prate ->
  exemption_fields_ok (mkExemption base start prate) = true ->
  new_Exemption base start prate = Ok (mkExemption base start prate)
  /\ forall income, compute (mkExemption base start prate) income = base.
Proof.
  intros Hhalf Hok. split.
  - unfold new_Exemption. now rewrite Hok.
  - intro income. destruct Hhalf as [[_ ->] | [-> _]].
    + now apply compute_unset_rate.
    + now apply compute_unset_start.
Qed.

Lemma half_phaseout_inactive_witness :
  new_Exemption 88100 None (Some 0.25) = Ok (mkExemption 88100 None (Some 0.25))
  /\ forall income, compute (mkExemption 88100 None (Some 0.25)) income = 88100.
Proof.
  apply (half_phaseout_inactive 88100 None (Some 0.25)).
  - right. split; [reflexivity | discriminate].
  - reflexivity.
Defined.

(** *** The sortedness validator *)

Lemma list_eqb_refl (l : list Q) : list_eqb l l = true.
Proof.
  induction l as [|a l IH]; simpl; trivial.
  rewrite IH, andb_true_r. apply Qeq_bool_iff. reflexivity.
Qed.

Lemma ascending_cons (a : Q) (l : list Q) :
  ascending (a :: l) = true <->
  ascending l = true /\ (forall b t, l = b :: t -> a <= b).
Proof.
  destruct l as [|b t]; simpl.
  - split; [|trivial]. intros _. split; trivial. discriminate.
  - rewrite andb_true_iff, Qleb_le. split.
    + intros [Hab Ht]. split; trivial. intros b' t' [= <- <-]. exact Hab.
    + intros [Ht Hhd]. split; trivial. now apply (Hhd b t).
Qed.

Lemma sorted_fixes_ascending (l : list Q) :
  ascending l = true -> sorted l = l.
Proof.
  induction l as [|a l IH]; trivial.
  intro H. apply ascending_cons in H. destruct H as [Hl Hhd].
  simpl. rewrite (IH Hl). destruct l as [|b t]; trivial.
  simpl. specialize (Hhd b t eq_refl). apply Qleb_le in Hhd.
  now rewrite Hhd.
Qed.

Lemma insert_sorted_ascending (v : Q) (l : list Q) :
  ascending l = true -> ascending (insert_sorted v l) = true.
Proof.
  induction l as [|h t IH]; trivial.
  intro H. simpl. destruct (Qleb v h) eqn:E.
  - change (Qleb v h && ascending (h :: t) = true). now rewrite E, H.
  - apply ascending_cons in H. destruct H as [Ht Hhd].
    apply ascending_cons. split; [now apply IH|].
    intros b t' Heq. reflect_cmp.
    destruct t as [|h' t'']; simpl in Heq.
    + injection Heq as <- _. lra.
    + destruct (Qleb v h'); injection Heq as <- _.
      * lra.
      * now apply (Hhd h' t'').
Qed.

Lemma sorted_ascending (l : list Q) : ascending (sorted l) = true.
Proof.
  induction l as [|a l IH]; trivial.
  simpl. now apply insert_sorted_ascending.
Qed.

Lemma list_eqb_ascending (a b : list Q) :
  list_eqb a b = true -> ascending b = true -> ascending a = true.
Proof.
  revert b. induction a as [|x a IH]; intros [|y b] Heq Hb; trivial;
    try discriminate.
  simpl in Heq. apply andb_true_iff in Heq. destruct Heq as [Hxy Hab].
  apply Qeq_bool_iff in Hxy.
  apply ascending_cons in Hb. destruct Hb as [Hb Hhd].
  apply ascending_cons. split; [now apply (IH b)|].
  intros x' a' ->. destruct b as [|y' b']; [discriminate|].
  simpl in Hab. apply andb_true_iff in Hab. destruct Hab as [Hx' _].
  apply Qeq_bool_iff in Hx'. specialize (Hhd y' b' eq_refl).
  rewrite Hxy, Hx'. exact Hhd.
Qed.

(** The validator's test [thresholds != sorted(thresholds)] is exactly
    "the thresholds are not in non-decreasing order". *)
Lemma sorted_test (l : list Q) : list_eqb l (sorted l) = ascending l.
Proof.
  destruct (ascending l) eqn:E.
  - rewrite (sorted_fixes_ascending l E). apply list_eqb_refl.
  - destruct (list_eqb l (sorted l)) eqn:F; trivial.
    rewrite (list_eqb_ascending _ _ F (sorted_ascending l)) in E.
    discriminate.
Qed.

Lemma strictly_ascending_ascending (l : list Q) :
  strictly_ascending l = true -> ascending l = true.
Proof.
  induction l as [|a l IH]; trivial.
  destruct l as [|b t]; trivial.
  intro H. change (Qltb a b && strictly_ascending (b :: t) = true) in H.
  apply andb_true_iff in H. destruct H as [Hab Ht].
  change (Qleb a b && ascending (b :: t) = true).
  rewrite (IH Ht), andb_true_r. reflect_cmp. apply Qleb_le. lra.
Qed.

(** C5, as stated, fails: two brackets with equal thresholds are not
    strictly ascending, yet the schedule is constructed. *)
Lemma equal_thresholds_not_rejected :
  strictly_ascending (map threshold [mkTaxBracket 50 0.10; mkTaxBracket 50 0.20])
  = false
  /\ new_TaxSchedule 2025 "Single" "Ordinary" (mkExemption 0 None None)
       [mkTaxBracket 50 0.10; mkTaxBracket 50 0.20]
     = Ok (mkTaxSchedule 2025 "Single" "Ordinary" (mkExemption 0 None None)
             [mkTaxBracket 50 0.10; mkTaxBracket 50 0.20])
  /\ ~ fails_with
         (new_TaxSchedule 2025 "Single" "Ordinary" (mkExemption 0 None None)
            [mkTaxBracket 50 0.10; mkTaxBracket 50 0.20])
         InvalidConfiguration.
Proof.
  repeat split. intros (e & He & _). discriminate He.
Qed.

(** C5, amended: constructing a [TaxSchedule] fails with an invalid
    configuration whenever the thresholds are not in non-decreasing order,
    as for thresholds [100, 50]; a non-empty bracket list in non-decreasing
    order, equal thresholds included, is accepted for a year in range. *)
Theorem unsorted_brackets_rejected (y : Z) (fs n : string) (e : Exemption)
    (bs : list TaxBracket) :
  (ascending (map threshold bs) = false ->
   fails_with (new_TaxSchedule y fs n e bs) InvalidConfiguration)
  /\ (ascending (map threshold bs) = true -> bs <> [] ->
      (2000 <= y <= 2100)%Z ->
      new_TaxSchedule y fs n e bs = Ok (mkTaxSchedule y fs n e bs)).
Proof.
  unfold new_TaxSchedule, brackets_must_be_sorted. rewrite sorted_test.
  split.
  - intros ->. simpl.
    destruct (negb _); [|destruct (negb _)];
      eexists; (split; [reflexivity|reflexivity]).
  - intros -> Hne [Hlo Hhi]. simpl.
    apply Z.leb_le in Hlo, Hhi. rewrite Hlo, Hhi. simpl.
    destruct bs; [contradiction|reflexivity].
Qed.

Lemma unsorted_brackets_rejected_witness :
  fails_with
    (new_TaxSchedule 2025 "Single" "Ordinary" (mkExemption 0 None None)
       [mkTaxBracket 100 0.10; mkTaxBracket 50 0.20])
    InvalidConfiguration
  /\ new_TaxSchedule 2025 "Single" "AMT" (exemption AMT_SCHEDULE)
       (brackets AMT_SCHEDULE)
     = Ok AMT_SCHEDULE.
Proof.
  split.
  - apply (unsorted_brackets_rejected 2025 "Single" "Ordinary"
             (mkExemption 0 None None)
             [mkTaxBracket 100 0.10; mkTaxBracket 50 0.20]).
    reflexivity.
  - apply (unsorted_brackets_rejected 2025 "Single" "AMT"
             (exemption AMT_SCHEDULE) (brackets AMT_SCHEDULE)).
    + reflexivity.
    + discriminate.
    + lia.
Defined.

(** ** The bracket loop *)

Lemma nth_error_next (pre : list TaxBracket) (b : TaxBracket)
    (rest' : list TaxBracket) :
  match nth_error (pre ++ b :: rest') (List.length pre + 1) with
  | Some b' => Fin (threshold b')
  | None => PInf
  end = next_of rest'.
Proof.
  replace (List.length pre + 1)%nat with (List.length (pre ++ [b]) + 0)%nat
    by (rewrite length_app; simpl; lia).
  change (b :: rest') with ([b] ++ rest'). rewrite app_assoc.
  rewrite nth_error_app2 by lia.
  replace (_ + 0 - _)%nat with O by lia.
  destruct rest'; reflexivity.
Qed.

Lemma bracket_loop_walk (all : list TaxBracket) (taxable : Q) :
  forall (rest pre : list TaxBracket) (tax : Q),
    all = pre ++ rest ->
    bracket_loop all taxable (List.length pre) rest tax = walk taxable rest tax.
Proof.
  induction rest as [|b rest' IH]; intros pre tax Hall; trivial.
  simpl. subst all. rewrite nth_error_next.
  destruct (Qleb taxable (threshold b)); trivial.
  specialize (IH (pre ++ [b]) (tax + (min_ext taxable (next_of rest') - threshold b) * rate b)).
  rewrite length_app in IH. simpl in IH.
  replace (List.length pre + 1)%nat with (S (List.length pre)) in IH by lia.
  apply IH. now rewrite <- app_assoc.
Qed.

Lemma compute_tax_unfold (s : TaxSchedule) (income : Q) :
  compute_tax s income =
  if Qltb income 0 then Raise (ValueError "Income cannot be negative")
  else if Qleb (taxable_income s income) 0 then Ok 0
  else Ok (walk (taxable_income s income) (brackets s) 0).
Proof.
  unfold compute_tax, taxable_income.
  now rewrite (bracket_loop_walk (brackets s) _ (brackets s) [] 0 eq_refl).
Qed.

(** The source's walk and the specification's agree, as numbers. *)
Lemma walk_stacked (taxable : Q) (bs : list TaxBracket) :
  forall tax total, tax == total ->
    walk taxable bs tax == stacked_accumulation taxable bs total.
Proof.
  induction bs as [|b rest IH]; intros tax total Heq; simpl; trivial.
  destruct (Qleb taxable (threshold b)); trivial.
  apply IH. fold (next_of rest). rewrite Heq. ring.
Qed.

(** *** Order properties of the walk *)

Lemma brackets_ok_cons (b : TaxBracket) (bs : list TaxBracket) :
  brackets_ok (b :: bs) ->
  0 <= rate b /\ brackets_ok bs
  /\ (forall b' t, bs = b' :: t -> threshold b <= threshold b').
Proof.
  intros [Hf Ha]. simpl in Hf. apply andb_true_iff in Hf.
  destruct Hf as [Hb Hbs]. unfold bracket_fields_ok in Hb.
  change (ascending (threshold b :: map threshold bs) = true) in Ha.
  apply ascending_cons in Ha. destruct Ha as [Ha Hhd].
  reflect_cmp. repeat split; trivial.
  intros b' t ->. now apply (Hhd (threshold b') (map threshold t)).
Qed.

Lemma min_ext_mono (t1 t2 : Q) (e : ext) :
  t1 <= t2 -> min_ext t1 e <= min_ext t2 e.
Proof.
  destruct e as [q|]; simpl; trivial.
  intro H. now apply Q.min_le_compat_r.
Qed.

Lemma min_ext_next_ge (taxable : Q) (b : TaxBracket) (rest : list TaxBracket) :
  threshold b < taxable ->
  (forall b' t, rest = b' :: t -> threshold b <= threshold b') ->
  threshold b <= min_ext taxable (next_of rest).
Proof.
  intros Hlt Hhd. destruct rest as [|b' t]; simpl.
  - lra.
  - apply Q.min_glb; [lra | now apply (Hhd b' t)].
Qed.

(** The running total never decreases. *)
Lemma walk_ge_tax (taxable : Q) (bs : list TaxBracket) :
  brackets_ok bs -> forall tax, tax <= walk taxable bs tax.
Proof.
  induction bs as [|b rest IH]; intros Hok tax; simpl; [lra|].
  apply brackets_ok_cons in Hok. destruct Hok as (Hr & Hrest & Hhd).
  destruct (Qleb taxable (threshold b)) eqn:E; [lra|].
  reflect_cmp.
  pose proof (min_ext_next_ge taxable b rest E Hhd) as Hge.
  eapply Qle_trans; [|apply (IH Hrest)].
  assert (0 <= (min_ext taxable (next_of rest) - threshold b) * rate b)
    by (apply Qmult_le_0_compat; lra).
  lra.
Qed.

(** More taxable income, and no smaller a starting total, give no less tax. *)
Lemma walk_mono (t1 t2 : Q) (bs : list TaxBracket) :
  brackets_ok bs -> t1 <= t2 ->
  forall tax1 tax2, tax1 <= tax2 -> walk t1 bs tax1 <= walk t2 bs tax2.
Proof.
  intros Hok Ht. induction bs as [|b rest IH]; intros tax1 tax2 Htax; trivial.
  pose proof (walk_ge_tax t2 (b :: rest) Hok tax2) as Hge2.
  apply brackets_ok_cons in Hok. destruct Hok as (Hr & Hrest & Hhd).
  simpl in *.
  destruct (Qleb t1 (threshold b)) eqn:E1; [lra|].
  destruct (Qleb t2 (threshold b)) eqn:E2; reflect_cmp; [lra|].
  apply (IH Hrest).
  pose proof (min_ext_mono t1 t2 (next_of rest) Ht) as Hmin.
  assert ((min_ext t1 (next_of rest) - threshold b) * rate b
          <= (min_ext t2 (next_of rest) - threshold b) * rate b)
    by (apply Qmult_le_compat_r; lra).
  lra.
Qed.

Lemma valid_schedule_parts (s : TaxSchedule) :
  valid_schedule s = true ->
  exemption_fields_ok (exemption s) = true /\ brackets_ok (brackets s).
Proof.
  unfold valid_schedule, brackets_ok. intro H.
  do 4 (apply andb_true_iff in H; destruct H as [H ?]).
  repeat split; assumption.
Qed.

(** ** compute_tax *)

(** C2: at a non-negative income, [compute_tax] returns [0.0] when the
    taxable amount is not positive, and otherwise the stacked
    marginal-bracket accumulation over the brackets in list order (which
    is ascending threshold order for a validated schedule). *)
Theorem compute_tax_stacked (s : TaxSchedule) (income : Q) :
  0 <= income ->
  (0 < taxable_income s income ->
   exists tax, compute_tax s income = Ok tax
     /\ tax == stacked_accumulation (taxable_income s income) (brackets s) 0)
  /\ (taxable_income s income <= 0 -> compute_tax s income = Ok 0).
Proof.
  intro Hinc. rewrite compute_tax_unfold.
  apply Qltb_ge in Hinc. rewrite Hinc. split; intro Ht.
  - apply Qleb_gt in Ht. rewrite Ht. eexists. split; [reflexivity|].
    apply walk_stacked. reflexivity.
  - apply Qleb_le in Ht. now rewrite Ht.
Qed.

Lemma compute_tax_stacked_witness :
  (exists tax, compute_tax ORDINARY_SCHEDULE 100000 = Ok tax
     /\ tax == stacked_accumulation 84250 (brackets ORDINARY_SCHEDULE) 0)
  /\ compute_tax ORDINARY_SCHEDULE 10000 = Ok 0.
Proof.
  split.
  - destruct (compute_tax_stacked ORDINARY_SCHEDULE 100000) as [Hpos _].
    + discriminate.
    + destruct (Hpos eq_refl) as (tax & Htax & Heq).
      exists tax. split; [exact Htax|].
      rewrite Heq. reflexivity.
  - destruct (compute_tax_stacked ORDINARY_SCHEDULE 10000) as [_ Hzero].
    + discriminate.
    + apply Hzero. discriminate.
Defined.

Lemma compute_tax_negative (s : TaxSchedule) (income : Q) :
  income < 0 ->
  compute_tax s income = Raise (ValueError "Income cannot be negative").
Proof.
  intro H. unfold compute_tax. apply Qltb_lt in H. now rewrite H.
Qed.

Lemma compute_tax_nonneg (s : TaxSchedule) (income : Q) :
  valid_schedule s = true -> 0 <= income ->
  exists tax, compute_tax s income = Ok tax /\ 0 <= tax.
Proof.
  intros Hs Hinc. apply valid_schedule_parts in Hs. destruct Hs as [_ Hbs].
  rewrite compute_tax_unfold. apply Qltb_ge in Hinc. rewrite Hinc.
  destruct (Qleb (taxable_income s income) 0).
  - exists 0. split; [reflexivity | apply Qle_refl].
  - eexists. split; [reflexivity|]. now apply walk_ge_tax.
Qed.

(** C6: on a valid schedule [compute_tax] fails, with an invalid-input
    error, exactly when the income is negative; at every income [>= 0] it
    returns a non-negative value; and after a failed call the schedule
    still answers later calls. *)
Theorem compute_tax_invalid_input (s : TaxSchedule) (income : Q) :
  valid_schedule s = true ->
  (income < 0 <-> fails_with (compute_tax s income) InvalidInput)
  /\ (0 <= income -> exists tax, compute_tax s income = Ok tax /\ 0 <= tax)
  /\ (forall later : Q,
        fails_with (compute_tax s income) InvalidInput -> 0 <= later ->
        exists tax, compute_tax s later = Ok tax /\ 0 <= tax).
Proof.
  intro Hs. repeat split.
  - intro Hneg. rewrite (compute_tax_negative s income Hneg).
    eexists. split; reflexivity.
  - intros (e & He & _). destruct (Qlt_le_dec income 0) as [|Hge]; trivial.
    destruct (compute_tax_nonneg s income Hs Hge) as (tax & Htax & _).
    congruence.
  - now apply compute_tax_nonneg.
  - intros later _. now apply compute_tax_nonneg.
Qed.

Lemma compute_tax_invalid_input_witness :
  fails_with (compute_tax AMT_SCHEDULE (-1)) InvalidInput
  /\ exists tax, compute_tax AMT_SCHEDULE 300000 = Ok tax /\ 0 <= tax.
Proof.
  destruct (compute_tax_invalid_input AMT_SCHEDULE (-1) eq_refl)
    as (Hiff & _ & Hlater).
  split.
  - apply Hiff. reflexivity.
  - apply Hlater.
    + apply Hiff. reflexivity.
    + discriminate.
Defined.

(** C7, as stated, fails: with a phaseout that starts below the base
    amount, an income under the base amount can exceed the reduced
    exemption and is taxed. *)
Lemma taxed_below_base_amount :
  valid_schedule
    (mkTaxSchedule 2025 "Single" "AMT"
       (mkExemption 88100 (Some 50000) (Some 0.25))
       [mkTaxBracket 0 0.26; mkTaxBracket 239100 0.28]) = true
  /\ 0 <= 88000 /\ 88000 < 88100
  /\ exists tax,
       compute_tax
         (mkTaxSchedule 2025 "Single" "AMT"
            (mkExemption 88100 (Some 50000) (Some 0.25))
            [mkTaxBracket 0 0.26; mkTaxBracket 239100 0.28]) 88000 = Ok tax
       /\ tax == 2444 /\ ~ tax == 0.
Proof.
  split; [reflexivity|]. split; [discriminate|]. split; [reflexivity|].
  eexists. split; [reflexivity|]. split; [reflexivity | discriminate].
Qed.

(** C7, amended: at a non-negative income strictly below the base amount
    and not above [phaseout_start] (or with the phaseout not configured),
    [compute_tax] returns exactly [0.0]. *)
Theorem compute_tax_zero_below_exemption (s : TaxSchedule) (income : Q) :
  0 <= income -> income < base_amount (exemption s) ->
  (phaseout_start (exemption s) = None
   \/ phaseout_rate (exemption s) = None
   \/ exists start, phaseout_start (exemption s) = Some start /\ income <= start) ->
  compute_tax s income = Ok 0.
Proof.
  intros Hinc Hbase Hph.
  assert (compute (exemption s) income = base_amount (exemption s)) as Hc.
  { destruct Hph as [H | [H | (start & H & Hle)]].
    - now apply compute_unset_start.
    - now apply compute_unset_rate.
    - now apply (compute_below_start _ _ start). }
  rewrite compute_tax_unfold. unfold taxable_income. rewrite Hc.
  apply Qltb_ge in Hinc. rewrite Hinc.
  assert (Qleb (income - base_amount (exemption s)) 0 = true) as ->
    by (apply Qleb_le; lra).
  reflexivity.
Qed.

Lemma compute_tax_zero_below_exemption_witness :
  compute_tax AMT_SCHEDULE 88000 = Ok 0
  /\ compute_tax ORDINARY_SCHEDULE 15000 = Ok 0.
Proof.
  split.
  - apply (compute_tax_zero_below_exemption AMT_SCHEDULE 88000).
    + discriminate.
    + reflexivity.
    + right. right. exists 626350. split; [reflexivity | discriminate].
  - apply (compute_tax_zero_below_exemption ORDINARY_SCHEDULE 15000).
    + discriminate.
    + reflexivity.
    + left. reflexivity.
Defined.

(** *** Monotonicity *)

(** The exemption does not grow with income. *)
Lemma compute_antitone (e : Exemption) (a b : Q) :
  exemption_fields_ok e = true -> a <= b -> compute e b <= compute e a.
Proof.
  intros Hok Hab. pose proof (compute_le_base e b Hok) as Hb.
  unfold exemption_fields_ok in Hok. unfold compute in *.
  destruct (phaseout_start e) as [start|], (phaseout_rate e) as [prate|];
    try apply Qle_refl.
  simpl in Hok. reflect_cmp.
  destruct (Qltb start a) eqn:Ea; [|exact Hb].
  reflect_cmp.
  assert (Qltb start b = true) as Eb by (apply Qltb_lt; lra).
  rewrite Eb. apply Q.max_le_compat_r.
  assert (prate * (a - start) <= prate * (b - start)).
  { rewrite !(Qmult_comm prate). apply Qmult_le_compat_r; lra. }
  lra.
Qed.

Lemma taxable_income_mono (s : TaxSchedule) (a b : Q) :
  exemption_fields_ok (exemption s) = true -> a <= b ->
  taxable_income s a <= taxable_income s b.
Proof.
  intros Hok Hab. unfold taxable_income.
  pose proof (compute_antitone (exemption s) a b Hok Hab). lra.
Qed.

(** C9: on a valid schedule [compute_tax] is non-decreasing over the
    non-negative incomes. *)
Theorem compute_tax_monotone (s : TaxSchedule) (a b : Q) :
  valid_schedule s = true -> 0 <= a -> a <= b ->
  exists ta tb,
    compute_tax s a = Ok ta /\ compute_tax s b = Ok tb /\ ta <= tb.
Proof.
  intros Hs Ha Hab.
  destruct (compute_tax_nonneg s b Hs) as (tb & Hb & Hb0); [lra|].
  destruct (valid_schedule_parts s Hs) as [He Hbs].
  pose proof (taxable_income_mono s a b He Hab) as Ht.
  rewrite compute_tax_unfold in Hb. rewrite !compute_tax_unfold.
  assert (Qltb a 0 = false) as Ea by (apply Qltb_ge; lra).
  assert (Qltb b 0 = false) as Eb by (apply Qltb_ge; lra).
  rewrite Ea, Eb. rewrite Eb in Hb.
  destruct (Qleb (taxable_income s a) 0) eqn:Ta.
  - exists 0, tb. repeat split; assumption.
  - reflect_cmp.
    assert (Qleb (taxable_income s b) 0 = false) as Tb
      by (apply Qleb_gt; lra).
    rewrite Tb in *. injection Hb as <-.
    do 2 eexists. repeat split.
    apply walk_mono; trivial. apply Qle_refl.
Qed.

Lemma compute_tax_monotone_witness :
  exists ta tb,
    compute_tax ORDINARY_SCHEDULE 100000 = Ok ta
    /\ compute_tax ORDINARY_SCHEDULE 250000 = Ok tb /\ ta <= tb.
Proof.
  apply (compute_tax_monotone ORDINARY_SCHEDULE 100000 250000).
  - reflexivity.
  - discriminate.
  - discriminate.
Defined.

(** ** compute_spread *)

Section SpreadProperties.

Variable method : Q -> optimize.solver.
Variables (income : Q) (ordinary_schedule amt_schedule : TaxSchedule).

Lemma objective_raise (total : Q) (e : exn) :
  objective income ordinary_schedule amt_schedule total = Raise e ->
  e = ValueError "Income cannot be negative".
Proof.
  unfold objective, bind, compute_tax.
  destruct (Qltb total 0); [now intros [= <-]|].
  destruct (Qleb _ 0); (destruct (Qltb income 0); [now intros [= <-]|]);
    destruct (Qleb _ 0); discriminate.
Qed.

Lemma root_raise (s : optimize.solver) (e : exn) :
  optimize.root s (objective income ordinary_schedule amt_schedule) = Raise e ->
  e = ValueError "Income cannot be negative".
Proof.
  induction s as [r | pt k IH]; simpl; [discriminate|].
  destruct (objective income ordinary_schedule amt_schedule pt) as [v|e'] eqn:E.
  - apply IH.
  - intros [= <-]. now apply (objective_raise pt).
Qed.

Lemma compute_spread_of_result (r : optimize.OptimizeResult) :
  solve method income ordinary_schedule amt_schedule = Ok r ->
  compute_spread method income ordinary_schedule amt_schedule
  = Ok (optimize.x r - income).
Proof. unfold compute_spread. intros ->. reflexivity. Qed.

(** C4, amended: [compute_spread] does not look at the solver's verdict.
    Whenever the solver ends with a result, converged or not, the value
    [result.x[0] - income] is returned; the only exception that can leave
    [compute_spread] is the [ValueError] of [compute_tax], an invalid
    input, never a root-finding failure. *)
Theorem compute_spread_unchecked :
  (forall r, solve method income ordinary_schedule amt_schedule = Ok r ->
     compute_spread method income ordinary_schedule amt_schedule
     = Ok (optimize.x r - income))
  /\ (forall e,
        compute_spread method income ordinary_schedule amt_schedule = Raise e ->
        e = ValueError "Income cannot be negative")
  /\ ~ fails_with (compute_spread method income ordinary_schedule amt_schedule)
         RootFindingFailure.
Proof.
  assert (forall e,
    compute_spread method income ordinary_schedule amt_schedule = Raise e ->
    e = ValueError "Income cannot be negative") as Hraise.
  { intros e. unfold compute_spread, solve, bind.
    destruct (optimize.root _ _) as [r|e'] eqn:E; [discriminate|].
    intros [= <-]. now apply root_raise in E. }
  repeat split; trivial.
  - apply compute_spread_of_result.
  - intros (e & He & Hk). apply Hraise in He. subst e. discriminate Hk.
Qed.

End SpreadProperties.

(** C4, as stated, fails.  Against an AMT schedule whose only rate is zero
    there is no root for a positive ordinary tax; the sample solver reports
    failure, and [compute_spread] still returns a number. *)
Lemma spread_returned_without_convergence :
  valid_schedule
    (mkTaxSchedule 2025 "Single" "AMT" (mkExemption 88100 None None)
       [mkTaxBracket 0 0]) = true
  /\ solve (optimize.newton_fd 100 0) 100000 ORDINARY_SCHEDULE
       (mkTaxSchedule 2025 "Single" "AMT" (mkExemption 88100 None None)
          [mkTaxBracket 0 0])
     = Ok (optimize.mkResult 188100 false (-13449.000000) 2)
  /\ compute_spread (optimize.newton_fd 100 0) 100000 ORDINARY_SCHEDULE
       (mkTaxSchedule 2025 "Single" "AMT" (mkExemption 88100 None None)
          [mkTaxBracket 0 0])
     = Ok 88100
  /\ ~ fails_with
         (compute_spread (optimize.newton_fd 100 0) 100000 ORDINARY_SCHEDULE
            (mkTaxSchedule 2025 "Single" "AMT" (mkExemption 88100 None None)
               [mkTaxBracket 0 0]))
         RootFindingFailure.
Proof.
  split; [reflexivity|]. split; [reflexivity|]. split; [reflexivity|].
  intros (e & He & _). discriminate He.
Qed.

Lemma compute_spread_unchecked_witness :
  compute_spread (optimize.newton_fd 0 0) 100000 ORDINARY_SCHEDULE AMT_SCHEDULE
  = Ok (188100 - 100000)
  /\ forall e,
       compute_spread (optimize.newton_fd 5 0) (-1) ORDINARY_SCHEDULE AMT_SCHEDULE
       = Raise e ->
       e = ValueError "Income cannot be negative".
Proof.
  split.
  - destruct (compute_spread_unchecked (optimize.newton_fd 0 0) 100000
                ORDINARY_SCHEDULE AMT_SCHEDULE) as [Hres _].
    apply (Hres (optimize.mkResult 188100 false 12551.00000000 1)).
    vm_compute. reflexivity.
  - apply (compute_spread_unchecked (optimize.newton_fd 5 0) (-1)
             ORDINARY_SCHEDULE AMT_SCHEDULE).
Defined.

(** * Further properties of the program *)

(** ** Constructors and the validity they establish *)

Lemma comprehension_ok_forall {A B : Type} (f : A -> result B) (P : B -> Prop) :
  (forall a b, f a = Ok b -> P b) ->
  forall l bs, comprehension f l = Ok bs -> Forall P bs.
Proof.
  intros Hf. induction l as [|a l IH]; simpl; intros bs H.
  - injection H as <-. constructor.
  - destruct (f a) as [b|] eqn:Ea; [|discriminate]. simpl in H.
    destruct (comprehension f l) as [bs'|]; [|discriminate]. simpl in H.
    injection H as <-. constructor; [now apply (Hf a) | now apply IH].
Qed.

Lemma new_TaxBracket_ok (t r : Q) (b : TaxBracket) :
  new_TaxBracket t r = Ok b -> bracket_fields_ok b = true.
Proof.
  unfold new_TaxBracket.
  destruct (bracket_fields_ok (mkTaxBracket t r)) eqn:E; [|discriminate].
  now intros [= <-].
Qed.

Lemma new_TaxSchedule_ok (y : Z) (fs n : string) (e : Exemption)
    (bs : list TaxBracket) (s : TaxSchedule) :
  new_TaxSchedule y fs n e bs = Ok s ->
  s = mkTaxSchedule y fs n e bs
  /\ ((2000 <=? y)%Z && (y <=? 2100)%Z) = true
  /\ (1 <=? List.length bs)%nat = true
  /\ ascending (map threshold bs) = true.
Proof.
  unfold new_TaxSchedule, brackets_must_be_sorted. rewrite sorted_test.
  destruct ((2000 <=? y)%Z && (y <=? 2100)%Z); [|discriminate].
  destruct (1 <=? List.length bs)%nat; [|discriminate].
  destruct (ascending (map threshold bs)); [|discriminate].
  simpl. intros [= <-]. auto.
Qed.

(** X1: a schedule assembled through the three constructors satisfies
    every constraint the later results rely on: field ranges, a non-empty
    bracket list in non-decreasing threshold order, a year in range; and
    it holds exactly the exemption and brackets it was given. *)
Theorem constructed_schedule_valid (y : Z) (fs n : string)
    (base : Q) (start prate : option Q) (raw : list (Q * Q))
    (e : Exemption) (bs : list TaxBracket) (s : TaxSchedule) :
  new_Exemption base start prate = Ok e ->
  comprehension (fun tr => new_TaxBracket (fst tr) (snd tr)) raw = Ok bs ->
  new_TaxSchedule y fs n e bs = Ok s ->
  valid_schedule s = true /\ exemption s = e /\ brackets s = bs.
Proof.
  intros He Hbs Hs.
  apply new_TaxSchedule_ok in Hs. destruct Hs as (-> & Hy & Hlen & Hasc).
  unfold new_Exemption in He.
  destruct (exemption_fields_ok _) eqn:Ee; [|discriminate].
  injection He as <-.
  assert (forallb bracket_fields_ok bs = true) as Hf.
  { apply forallb_forall. apply Forall_forall.
    apply (comprehension_ok_forall _ (fun b => bracket_fields_ok b = true)
             (fun tr b => new_TaxBracket_ok (fst tr) (snd tr) b) raw bs Hbs). }
  unfold valid_schedule. cbn [exemption brackets year].
  rewrite Ee, Hf, Hlen, Hasc, Hy. repeat split.
Qed.

Lemma constructed_schedule_valid_witness :
  valid_schedule AMT_SCHEDULE = true
  /\ exemption AMT_SCHEDULE = mkExemption 88100 (Some 626350) (Some 0.25)
  /\ brackets AMT_SCHEDULE = [mkTaxBracket 0 0.26; mkTaxBracket 239100 0.28].
Proof.
  apply (constructed_schedule_valid 2025 "Single" "AMT"
           88100 (Some 626350) (Some 0.25) [(0, 0.26); (239100, 0.28)]);
    reflexivity.
Defined.

(** X2: [TaxSchedule(...)] is constructed exactly when the year lies in
    2000..2100, the bracket list is not empty and the thresholds are in
    non-decreasing order; it then holds the given fields unchanged, and
    otherwise construction fails with a configuration error. *)
Theorem new_TaxSchedule_accepts (y : Z) (fs n : string) (e : Exemption)
    (bs : list TaxBracket) :
  (new_TaxSchedule y fs n e bs = Ok (mkTaxSchedule y fs n e bs)
   <-> (2000 <= y <= 2100)%Z /\ bs <> []
       /\ ascending (map threshold bs) = true)
  /\ (new_TaxSchedule y fs n e bs = Ok (mkTaxSchedule y fs n e bs)
      \/ fails_with (new_TaxSchedule y fs n e bs) InvalidConfiguration).
Proof.
  split; [split|].
  - intro H. apply new_TaxSchedule_ok in H.
    destruct H as (_ & Hy & Hlen & Hasc).
    apply andb_true_iff in Hy. destruct Hy as [Hlo Hhi].
    apply Z.leb_le in Hlo, Hhi. repeat split; trivial.
    intros ->. discriminate Hlen.
  - intros ([Hlo Hhi] & Hne & Hasc).
    unfold new_TaxSchedule, brackets_must_be_sorted. rewrite sorted_test, Hasc.
    apply Z.leb_le in Hlo, Hhi. rewrite Hlo, Hhi. simpl.
    destruct bs; [contradiction | reflexivity].
  - unfold new_TaxSchedule, brackets_must_be_sorted. rewrite sorted_test.
    destruct (negb ((2000 <=? y)%Z && (y <=? 2100)%Z));
      [right; eexists; split; reflexivity|].
    destruct (negb (1 <=? List.length bs)%nat);
      [right; eexists; split; reflexivity|].
    destruct (ascending (map threshold bs)); simpl.
    + now left.
    + right; eexists; split; reflexivity.
Qed.

Lemma new_TaxSchedule_accepts_witness :
  new_TaxSchedule 2025 "Single" "Ordinary" (exemption ORDINARY_SCHEDULE)
    (brackets ORDINARY_SCHEDULE) = Ok ORDINARY_SCHEDULE
  /\ fails_with (new_TaxSchedule 2025 "Single" "Ordinary"
                   (exemption ORDINARY_SCHEDULE) []) InvalidConfiguration.
Proof.
  split.
  - apply (new_TaxSchedule_accepts 2025 "Single" "Ordinary"
             (exemption ORDINARY_SCHEDULE) (brackets ORDINARY_SCHEDULE)).
    split; [lia|]. split; [discriminate | reflexivity].
  - destruct (new_TaxSchedule_accepts 2025 "Single" "Ordinary"
                (exemption ORDINARY_SCHEDULE) []) as [_ [H|H]].
    + discriminate H.
    + exact H.
Defined.

(** ** Steps of the walk *)

Lemma walk_break (t : Q) (b : TaxBracket) (rest : list TaxBracket) (tax : Q) :
  t <= threshold b -> walk t (b :: rest) tax = tax.
Proof. intro H. simpl. apply Qleb_le in H. now rewrite H. Qed.

Lemma walk_enter (t : Q) (b : TaxBracket) (rest : list TaxBracket) (tax : Q) :
  threshold b < t ->
  walk t (b :: rest) tax
  = walk t rest (tax + (min_ext t (next_of rest) - threshold b) * rate b).
Proof. intro H. simpl. apply Qleb_gt in H. now rewrite H. Qed.

(** ** Where the exemption runs out *)

(** X9: with both phaseout fields set, the exemption of a valid
    [Exemption] is zero exactly when the base amount is zero or the income
    is far enough above [phaseout_start] for the reduction
    [phaseout_rate * (income - phaseout_start)] to reach the base amount. *)
Theorem exemption_exhausted (e : Exemption) (start prate income : Q) :
  exemption_fields_ok e = true ->
  phaseout_start e = Some start -> phaseout_rate e = Some prate ->
  (compute e income == 0
   <-> base_amount e == 0
       \/ (start < income /\ base_amount e <= prate * (income - start))).
Proof.
  intros Hok Hs Hr.
  pose proof (compute_nonneg e income Hok) as H0.
  pose proof (compute_le_base e income Hok) as Hb.
  destruct (Qlt_le_dec start income) as [Hlt | Hle].
  - rewrite (compute_above_start e income start prate Hs Hr Hlt) in *.
    split.
    + intro Hz. right. split; trivial.
      pose proof (Q.le_max_l (base_amount e - prate * (income - start)) 0).
      lra.
    + intros [Hz | [_ Hred]]; [lra|].
      apply Q.max_r. lra.
  - rewrite (compute_below_start e income start Hs Hle) in *.
    split; [now left|]. intros [Hz | [Hlt _]]; [exact Hz | lra].
Qed.

Lemma exemption_exhausted_witness :
  compute (exemption AMT_SCHEDULE) 978750 == 0
  /\ ~ compute (exemption AMT_SCHEDULE) 978749 == 0.
Proof.
  split.
  - apply (exemption_exhausted (exemption AMT_SCHEDULE) 626350 0.25 978750);
      try reflexivity.
    right. split; [reflexivity | discriminate].
  - intro H.
    apply (exemption_exhausted (exemption AMT_SCHEDULE) 626350 0.25 978749)
      in H; try reflexivity.
    destruct H as [H | [_ H]]; [discriminate H | apply H; reflexivity].
Defined.

(** ** compute_spread at a negative base income *)

Lemma spread_negative_raises (method : Q -> optimize.solver)
    (income : Q) (ordinary_schedule amt_schedule : TaxSchedule) :
  evaluates_first method -> income < 0 ->
  compute_spread method income ordinary_schedule amt_schedule
  = Raise (ValueError "Income cannot be negative").
Proof.
  intros Hm Hneg. unfold compute_spread, solve.
  destruct (Hm (initial_guess income amt_schedule)) as (pt & k & ->).
  cbn [optimize.root]. unfold objective at 1.
  rewrite (compute_tax_negative ordinary_schedule income Hneg).
  destruct (compute_tax amt_schedule pt) as [a|e] eqn:E; cbn [bind].
  - reflexivity.
  - unfold compute_tax in E. destruct (Qltb pt 0).
    + injection E as <-. reflexivity.
    + destruct (Qleb _ 0); discriminate E.
Qed.

(** X10: with a negative base income, any method that evaluates the
    objective at all makes [compute_spread] raise the [ValueError] of
    [compute_tax]: no spread is returned. *)
Theorem compute_spread_negative_income (method : Q -> optimize.solver)
    (income : Q) (ordinary_schedule amt_schedule : TaxSchedule) :
  evaluates_first method -> income < 0 ->
  compute_spread method income ordinary_schedule amt_schedule
  = Raise (ValueError "Income cannot be negative").
Proof.
  intros Hm Hneg. unfold compute_spread, solve.
  destruct (Hm (initial_guess income amt_schedule)) as (pt & k & ->).
  cbn [optimize.root]. unfold objective at 1.
  rewrite (compute_tax_negative ordinary_schedule income Hneg).
  destruct (compute_tax amt_schedule pt) as [a|e] eqn:E; cbn [bind].
  - reflexivity.
  - unfold compute_tax in E. destruct (Qltb pt 0).
    + injection E as <-. reflexivity.
    + destruct (Qleb _ 0); discriminate E.
Qed.

Lemma compute_spread_negative_income_witness :
  compute_spread (optimize.newton_fd 5 0) (-10) ORDINARY_SCHEDULE AMT_SCHEDULE
  = Raise (ValueError "Income cannot be negative").
Proof.
  apply (compute_spread_negative_income (optimize.newton_fd 5 0) (-10)).
  - intro x0. do 2 eexists. reflexivity.
  - reflexivity.
Defined.

(** ** The range analysis *)

(** *** List comprehension and argmin *)

Lemma comprehension_Forall2 {A B : Type} (f : A -> result B) :
  forall l ys, comprehension f l = Ok ys ->
    Forall2 (fun a b => f a = Ok b) l ys.
Proof.
  induction l as [|a l IH]; simpl; intros ys H.
  - injection H as <-. constructor.
  - destruct (f a) as [b|] eqn:Ea; [|discriminate]. simpl in H.
    destruct (comprehension f l) as [bs|]; [|discriminate]. simpl in H.
    injection H as <-. constructor; [exact Ea | now apply IH].
Qed.

Lemma comprehension_raise {A B : Type} (f : A -> result B) :
  forall l e, comprehension f l = Raise e -> exists a, In a l /\ f a = Raise e.
Proof.
  induction l as [|a l IH]; simpl; intros e H; [discriminate|].
  destruct (f a) as [b|e'] eqn:Ea; simpl in H.
  - destruct (comprehension f l) as [bs|e''] eqn:El; simpl in H;
      [discriminate|].
    injection H as <-. destruct (IH e'' eq_refl) as (a' & Hin & Ha').
    exists a'. split; [now right | exact Ha'].
  - injection H as <-. exists a. split; [now left | exact Ea].
Qed.

Lemma comprehension_aborts {A B : Type} (f : A -> result B) :
  forall l a e, In a l -> f a = Raise e -> exists e', comprehension f l = Raise e'.
Proof.
  induction l as [|a0 l IH]; simpl; intros a e Hin Ha; [contradiction|].
  destruct (f a0) as [b|e0] eqn:E0; simpl; [|eauto].
  destruct Hin as [-> | Hin]; [congruence|].
  destruct (IH a e Hin Ha) as (e' & ->). simpl. eauto.
Qed.

Lemma Forall2_nth_Q (R : Q -> Q -> Prop) :
  forall l ys, Forall2 R l ys ->
    List.length ys = List.length l
    /\ forall i, (i < List.length l)%nat -> R (nth i l 0) (nth i ys 0).
Proof.
  induction 1 as [|a b l ys Hab H IH]; simpl.
  - split; [reflexivity | intros i Hi; lia].
  - destruct IH as [Hlen Hnth]. split; [now rewrite Hlen|].
    intros [|i] Hi; [exact Hab | apply Hnth; lia].
Qed.

(** What [argmin_from] returns, when [pre] is the part already seen and
    [best_idx] points at its first smallest element. *)
Lemma argmin_from_spec :
  forall (l pre : list Q) (best_idx : nat) (best : Q),
    (best_idx < List.length pre)%nat ->
    nth best_idx pre 0 = best ->
    (forall j, (j < List.length pre)%nat -> best <= nth j pre 0) ->
    (forall j, (j < best_idx)%nat -> best < nth j pre 0) ->
    let r := argmin_from best_idx best (List.length pre) l in
    (r < List.length (pre ++ l))%nat
    /\ (forall j, (j < List.length (pre ++ l))%nat ->
          nth r (pre ++ l) 0 <= nth j (pre ++ l) 0)
    /\ (forall j, (j < r)%nat -> nth r (pre ++ l) 0 < nth j (pre ++ l) 0).
Proof.
  induction l as [|y l IH]; intros pre best_idx best Hidx Hbest Hmin Hfirst.
  - simpl. rewrite app_nil_r, Hbest. auto.
  - cbn [argmin_from].
    replace (pre ++ y :: l) with ((pre ++ [y]) ++ l)
      by (rewrite <- app_assoc; reflexivity).
    replace (S (List.length pre)) with (List.length (pre ++ [y]))
      by (rewrite length_app; simpl; lia).
    assert (forall j, (j < List.length pre)%nat ->
              nth j (pre ++ [y]) 0 = nth j pre 0) as Hold
      by (intros j Hj; now apply app_nth1).
    assert (nth (List.length pre) (pre ++ [y]) 0 = y) as Hnew
      by (rewrite app_nth2, Nat.sub_diag by lia; reflexivity).
    assert (forall j, (j < List.length (pre ++ [y]))%nat ->
              (j < List.length pre)%nat \/ j = List.length pre) as Hsplit
      by (intros j; rewrite length_app; simpl; lia).
    destruct (Qltb y best) eqn:E; reflect_cmp.
    + apply (IH (pre ++ [y]) (List.length pre) y).
      * rewrite length_app. simpl. lia.
      * exact Hnew.
      * intros j Hj. destruct (Hsplit j Hj) as [Hj' | ->].
        -- rewrite (Hold j Hj'). specialize (Hmin j Hj'). lra.
        -- rewrite Hnew. apply Qle_refl.
      * intros j Hj. rewrite (Hold j Hj). specialize (Hmin j Hj). lra.
    + apply (IH (pre ++ [y]) best_idx best).
      * rewrite length_app. simpl. lia.
      * now rewrite (Hold best_idx Hidx).
      * intros j Hj. destruct (Hsplit j Hj) as [Hj' | ->].
        -- rewrite (Hold j Hj'). now apply Hmin.
        -- now rewrite Hnew.
      * intros j Hj. rewrite (Hold j) by lia. now apply Hfirst.
Qed.

Lemma argmin_spec (l : list Q) (i : nat) :
  argmin l = Ok i ->
  (i < List.length l)%nat
  /\ (forall j, (j < List.length l)%nat -> nth i l 0 <= nth j l 0)
  /\ (forall j, (j < i)%nat -> nth i l 0 < nth j l 0).
Proof.
  destruct l as [|y l]; [discriminate|]. simpl argmin. intros [= <-].
  apply (argmin_from_spec l [y] 0%nat y).
  - simpl. lia.
  - reflexivity.
  - intros [|j] Hj; simpl in *; [apply Qle_refl | lia].
  - intros j Hj. lia.
Qed.

(** *** What the scan reports *)

Section RangeAnalysis.

Variable method : Q -> optimize.solver.

Lemma spread_raise_kind (x : Q) (e : exn) :
  compute_spread method x ORDINARY_SCHEDULE AMT_SCHEDULE = Raise e ->
  e = ValueError "Income cannot be negative".
Proof.
  unfold compute_spread, solve, bind.
  destruct (optimize.root _ _) as [r|e'] eqn:E; [discriminate|].
  intros [= <-]. now apply root_raise in E.
Qed.

(** X12: when the range analysis reports [(min_spread, min_income)],
    [min_income] is one of the scanned incomes, [min_spread] is the spread
    computed for it, no scanned income has a smaller spread, and every
    income scanned before it has a strictly larger one. *)
Theorem range_analysis_minimum (x_values : list Q) (min_spread min_income : Q) :
  range_analysis method x_values = Ok (min_spread, min_income) ->
  exists i,
    (i < List.length x_values)%nat
    /\ min_income = nth i x_values 0
    /\ compute_spread method min_income ORDINARY_SCHEDULE AMT_SCHEDULE
       = Ok min_spread
    /\ (forall x, In x x_values ->
          exists y,
            compute_spread method x ORDINARY_SCHEDULE AMT_SCHEDULE = Ok y
            /\ min_spread <= y)
    /\ (forall j, (j < i)%nat ->
          exists y,
            compute_spread method (nth j x_values 0)
              ORDINARY_SCHEDULE AMT_SCHEDULE = Ok y
            /\ min_spread < y).
Proof.
  unfold range_analysis.
  destruct (comprehension _ x_values) as [ys|] eqn:Ec; [|discriminate].
  cbn [bind]. destruct (argmin ys) as [i|] eqn:Ea; [|discriminate].
  cbn [bind]. intros [= <- <-].
  apply comprehension_Forall2 in Ec. apply Forall2_nth_Q in Ec.
  destruct Ec as [Hlen Hnth].
  apply argmin_spec in Ea. destruct Ea as (Hi & Hmin & Hfirst).
  rewrite Hlen in Hi, Hmin.
  exists i. split; [exact Hi|]. split; [reflexivity|].
  split; [now apply Hnth|]. split.
  - intros x Hin. apply (In_nth _ _ 0) in Hin. destruct Hin as (j & Hj & <-).
    exists (nth j ys 0). split; [now apply Hnth | now apply Hmin].
  - intros j Hj. exists (nth j ys 0). split; [apply Hnth; lia | now apply Hfirst].
Qed.

Lemma range_analysis_aborts (x_values : list Q) (x : Q) (e : exn) :
  In x x_values ->
  compute_spread method x ORDINARY_SCHEDULE AMT_SCHEDULE = Raise e ->
  range_analysis method x_values
  = Raise (ValueError "Income cannot be negative").
Proof.
  intros Hin Hx. unfold range_analysis.
  destruct (comprehension_aborts
              (fun x => compute_spread method x ORDINARY_SCHEDULE AMT_SCHEDULE)
              x_values x e Hin Hx) as (e' & He').
  rewrite He'. cbn [bind].
  apply comprehension_raise in He'. destruct He' as (a & _ & Ha).
  apply spread_raise_kind in Ha. now subst e'.
Qed.

(** X13: how the range analysis fails.  With nothing to scan it fails in
    [argmin]; a single scanned income whose spread computation raises
    makes the whole analysis raise, no other point being reported; this
    is what any negative scanned income does, once the method evaluates
    the objective. *)
Theorem range_analysis_failures (x_values : list Q) :
  range_analysis method []
  = Raise (ValueError "attempt to get argmin of an empty sequence")
  /\ (forall x e,
        In x x_values ->
        compute_spread method x ORDINARY_SCHEDULE AMT_SCHEDULE = Raise e ->
        range_analysis method x_values
        = Raise (ValueError "Income cannot be negative"))
  /\ (evaluates_first method ->
      forall x, In x x_values -> x < 0 ->
      range_analysis method x_values
      = Raise (ValueError "Income cannot be negative")).
Proof.
  split; [reflexivity|]. split; [apply range_analysis_aborts|].
  intros Hm x Hin Hneg.
  apply (range_analysis_aborts x_values x
           (ValueError "Income cannot be negative") Hin).
  now apply spread_negative_raises.
Qed.

End RangeAnalysis.

Lemma range_analysis_minimum_witness :
  exists i,
    (i < List.length [100000; 100010; 100020]%Q)%nat
    /\ 100020 = nth i [100000; 100010; 100020] 0
    /\ compute_spread (optimize.newton_fd 5 0) 100020
         ORDINARY_SCHEDULE AMT_SCHEDULE = Ok (517710 # 13)
    /\ (forall x, In x [100000; 100010; 100020] ->
          exists y,
            compute_spread (optimize.newton_fd 5 0) x
              ORDINARY_SCHEDULE AMT_SCHEDULE = Ok y
            /\ 517710 # 13 <= y)
    /\ (forall j, (j < i)%nat ->
          exists y,
            compute_spread (optimize.newton_fd 5 0)
              (nth j [100000; 100010; 100020] 0)
              ORDINARY_SCHEDULE AMT_SCHEDULE = Ok y
            /\ 517710 # 13 < y).
Proof.
  apply (range_analysis_minimum (optimize.newton_fd 5 0)
           [100000; 100010; 100020]).
  vm_compute. reflexivity.
Defined.

Lemma range_analysis_failures_witness :
  range_analysis (optimize.newton_fd 5 0) [-20; -10; 0; 10]
  = Raise (ValueError "Income cannot be negative").
Proof.
  destruct (range_analysis_failures (optimize.newton_fd 5 0) [-20; -10; 0; 10])
    as (_ & _ & Hneg).
  apply (Hneg (fun x0 => ex_intro _ _ (ex_intro _ _ eq_refl)) (-10)).
  - right. left. reflexivity.
  - reflexivity.
Defined.

(** ** Brackets out of reach *)

Lemma Qmin_left (t n : Q) : t <= n -> Qmin t n = t.
Proof.
  intro H. unfold Qmin, GenericMinMax.gmin.
  destruct (t ?= n) eqn:E; trivial.
  apply Qgt_alt in E. lra.
Qed.

(** What lies from the first bracket not below [t] onwards adds nothing,
    and does not change what the brackets before it add. *)
Lemma walk_truncate (t : Q) (rest : list TaxBracket) :
  (forall b r, rest = b :: r -> t <= threshold b) ->
  forall pre tax, walk t (pre ++ rest) tax = walk t pre tax.
Proof.
  intros Hrest. induction pre as [|p pre' IH]; intro tax.
  - destruct rest as [|b r]; [reflexivity|].
    apply walk_break. now apply (Hrest b r).
  - cbn [app walk]. destruct (Qleb t (threshold p)); [reflexivity|].
    rewrite IH. destruct pre' as [|p' pre'']; [|reflexivity].
    cbn [app next_of min_ext]. destruct rest as [|b r]; [reflexivity|].
    cbn [next_of min_ext]. now rewrite (Qmin_left t (threshold b) (Hrest b r eq_refl)).
Qed.

(** X6: a bracket whose threshold is not below the taxable amount, and
    every bracket listed after it, has no effect on the tax: the schedule
    cut off before that bracket gives the same result. *)
Theorem higher_brackets_irrelevant (s : TaxSchedule)
    (pre : list TaxBracket) (b : TaxBracket) (rest : list TaxBracket)
    (income : Q) :
  brackets s = pre ++ b :: rest -> pre <> [] ->
  taxable_income s income <= threshold b ->
  compute_tax s income = compute_tax (with_brackets s pre) income.
Proof.
  intros Hbs _ Hle. rewrite !compute_tax_unfold.
  unfold taxable_income in *. cbn [with_brackets exemption brackets].
  rewrite Hbs.
  rewrite (walk_truncate _ (b :: rest)); [reflexivity|].
  intros b' r [= <- _]. exact Hle.
Qed.

Lemma higher_brackets_irrelevant_witness :
  compute_tax ORDINARY_SCHEDULE 100000
  = compute_tax
      (with_brackets ORDINARY_SCHEDULE
         [mkTaxBracket 0 0.10; mkTaxBracket 11925 0.12; mkTaxBracket 48475 0.22])
      100000.
Proof.
  apply (higher_brackets_irrelevant ORDINARY_SCHEDULE
           [mkTaxBracket 0 0.10; mkTaxBracket 11925 0.12; mkTaxBracket 48475 0.22]
           (mkTaxBracket 103350 0.24)
           [mkTaxBracket 197300 0.32; mkTaxBracket 250525 0.35;
            mkTaxBracket 626350 0.37]).
  - reflexivity.
  - discriminate.
  - discriminate.
Defined.

(** ** The exemption over incomes *)

(** X15: for a valid [Exemption] the exemption never grows with income:
    for [a <= b], [compute(b) <= compute(a)], and both lie between zero
    and the base amount. *)
Theorem exemption_nonincreasing (e : Exemption) (a b : Q) :
  exemption_fields_ok e = true -> a <= b ->
  0 <= compute e b /\ compute e b <= compute e a
  /\ compute e a <= base_amount e.
Proof.
  intros Hok Hab. split; [now apply compute_nonneg|]. split.
  - now apply compute_antitone.
  - now apply compute_le_base.
Qed.

Lemma exemption_nonincreasing_witness :
  0 <= compute (exemption AMT_SCHEDULE) 700000
  /\ compute (exemption AMT_SCHEDULE) 700000
     <= compute (exemption AMT_SCHEDULE) 600000
  /\ compute (exemption AMT_SCHEDULE) 600000 <= base_amount (exemption AMT_SCHEDULE).
Proof.
  apply (exemption_nonincreasing (exemption AMT_SCHEDULE) 600000 700000).
  - reflexivity.
  - discriminate.
Defined.

(** ** A flat tax *)

(** X14: a flat tax.  With a zero exemption and the single bracket
    [{threshold: 0, rate: r}], the tax on a non-negative income [x] is
    [r * x]. *)
Theorem flat_tax (y : Z) (fs n : string) (r x : Q) :
  0 <= x ->
  exists tax,
    compute_tax (mkTaxSchedule y fs n (mkExemption 0 None None)
                   [mkTaxBracket 0 r]) x = Ok tax
    /\ tax == r * x.
Proof.
  intro Hx. rewrite compute_tax_unfold. unfold taxable_income.
  cbn [exemption brackets].
  rewrite (compute_unset_start (mkExemption 0 None None) x eq_refl).
  cbn [base_amount].
  assert (Qltb x 0 = false) as -> by now apply Qltb_ge.
  destruct (Qleb (x - 0) 0) eqn:E; reflect_cmp.
  - exists 0. split; [reflexivity|].
    assert (x == 0) as -> by lra. ring.
  - eexists. split; [reflexivity|].
    rewrite (walk_enter (x - 0) (mkTaxBracket 0 r) [] 0)
      by (cbn [threshold]; lra).
    cbn [walk next_of min_ext threshold rate]. ring.
Qed.

Lemma flat_tax_witness :
  exists tax,
    compute_tax (mkTaxSchedule 2025 "Single" "Flat" (mkExemption 0 None None)
                   [mkTaxBracket 0 0.20]) 50000 = Ok tax
    /\ tax == 0.20 * 50000.
Proof.
  apply (flat_tax 2025 "Single" "Flat" 0.20 50000). discriminate.
Defined.